(** * RTEQC-api: a shallow embedding of [rteqc_api.py]

    The module serves the outputs of RT-EQcorrscan runs over HTTP.  Its own
    logic is path templating ([str.format] on three templates), trigger
    discovery ([glob] + [os.path.isfile]) and the request handlers.  The file
    system is modelled as a tree of directories and regular files; logging
    and exceptions are threaded through a small writer/error monad.

    Library code that the module merely calls (the pandas CSV parser and
    JSON encoder, the rendering of an exception as text) is an interface,
    [Library], that the loaders and handlers are stated over.  The landing
    page is a fixed text and is left out. *)

From Stdlib Require Import String Ascii List Bool Lia.
From Stdlib Require Strings.Byte DecimalString.
Import ListNotations.
Local Open Scope list_scope.
Local Open Scope string_scope.

(** ** Strings *)

Module Str.

(** [s.split(sep)] for a one-character separator: always at least one piece. *)
Fixpoint split (sep : ascii) (s : string) : list string :=
  match s with
  | EmptyString => [EmptyString]
  | String c s' =>
      if Ascii.eqb c sep then EmptyString :: split sep s'
      else match split sep s' with
           | [] => [String c EmptyString]
           | p :: ps => String c p :: ps
           end
  end.

(** [sep in s] for a one-character [sep]. *)
Fixpoint mem (sep : ascii) (s : string) : bool :=
  match s with
  | EmptyString => false
  | String c s' => Ascii.eqb c sep || mem sep s'
  end.

(** [needle in s] for strings. *)
Fixpoint contains (needle s : string) : bool :=
  String.prefix needle s ||
  match s with
  | EmptyString => false
  | String _ s' => contains needle s'
  end.

(** [sep.join(parts)]. *)
Definition join (sep : string) (parts : list string) : string :=
  String.concat sep parts.

End Str.

(** ** [str.format] with keyword arguments

    A template is scanned into literal characters and replacement fields.
    Doubled braces are the escapes of a literal brace.  Conversions and
    format specifications ([!r], [:>8]) do not occur in this program and are
    not modelled: a field name is looked up as it stands. *)

Inductive segment : Type :=
  | Lit (c : ascii)
  | Field (name : string).

(** [scan t field]: [field] is [Some acc] while inside a replacement field
    whose name read so far is [acc].  [None] is Python's [ValueError]
    (a single brace, or a field left open). *)
Fixpoint scan (t : string) (field : option string) : option (list segment) :=
  match t with
  | EmptyString =>
      match field with
      | None => Some []
      | Some _ => None
      end
  | String c t' =>
      match field with
      | Some acc =>
          if Ascii.eqb c "}"%char then option_map (cons (Field acc)) (scan t' None)
          else if Ascii.eqb c "{"%char then None
          else scan t' (Some (acc ++ String c EmptyString))
      | None =>
          if Ascii.eqb c "{"%char then
            match t' with
            | String "{"%char t'' => option_map (cons (Lit "{"%char)) (scan t'' None)
            | _ => scan t' (Some EmptyString)
            end
          else if Ascii.eqb c "}"%char then
            match t' with
            | String "}"%char t'' => option_map (cons (Lit "}"%char)) (scan t'' None)
            | _ => None
            end
          else option_map (cons (Lit c)) (scan t' None)
      end
  end.

Definition kwargs := list (string * string).

Fixpoint kwarg (name : string) (kw : kwargs) : option string :=
  match kw with
  | [] => None
  | (k, v) :: kw' => if String.eqb k name then Some v else kwarg name kw'
  end.

(** Substituted values are copied as they are: they are never scanned again.
    [None] stands for [KeyError] on a field with no argument. *)
Fixpoint render (segs : list segment) (kw : kwargs) : option string :=
  match segs with
  | [] => Some EmptyString
  | Lit c :: segs' => option_map (String c) (render segs' kw)
  | Field name :: segs' =>
      match kwarg name kw with
      | None => None
      | Some v => option_map (String.append v) (render segs' kw)
      end
  end.

Definition format (template : string) (kw : kwargs) : option string :=
  match scan template None with
  | None => None
  | Some segs => render segs kw
  end.

(** How many replacement fields of a template carry the name [name]. *)
Definition field_count (name : string) (template : string) : option nat :=
  option_map
    (fun segs =>
       length (filter (fun s => match s with
                                | Field n => String.eqb n name
                                | Lit _ => false
                                end) segs))
    (scan template None).

(** ** Module constants *)

Definition BASEPATH : string := "/tmp/outputs/detections".
Definition CATALOG_FILENAME : string :=
  "{basepath}/{triggerID}/{triggerID}/output_out/catalog.csv".
Definition SOURCE_FILENAME : string :=
  "{basepath}/{triggerID}/{triggerID}/plotter_out/output_metrics_summary_file.csv".
Definition PLOT_FILENAME : string :=
  "{basepath}/{triggerID}/{triggerID}/plotter_out/{plot_type}_latest.png".

Definition KNOWN_PLOT_TYPES : list string :=
  [ "Scaled_Magnitude_Comparison";
    "Aftershock_extent_depth_map";
    "catalog_RT";
    "catalog_templates";
    "confidence_ellipsoid";
    "confidence_ellipsoid_vertical";
    "focal_sphere";
    "Geometry_with_time" ].

(** The three resolved paths, as the call sites build them. *)
Definition catalog_path (basepath triggerID : string) : option string :=
  format CATALOG_FILENAME [("basepath", basepath); ("triggerID", triggerID)].

Definition source_path (basepath triggerID : string) : option string :=
  format SOURCE_FILENAME [("basepath", basepath); ("triggerID", triggerID)].

Definition plot_path (basepath triggerID plot_type : string) : option string :=
  format PLOT_FILENAME
    [("triggerID", triggerID); ("basepath", basepath); ("plot_type", plot_type)].

(** ** The file system

    A tree of directories and regular files.  A directory lists its entries
    in the order the operating system enumerates them ([os.scandir]), which
    is the order [glob] returns them in.  Symbolic links are not modelled,
    and every path is resolved from the root (the constants of the module
    are absolute paths). *)

#[warnings="-register-all"]
Inductive node : Type :=
  | File (data : list Byte.byte)
  | Dir (entries : list (string * node)).

Inductive errno : Type := ENOENT | ENOTDIR | EISDIR.

Fixpoint assoc (name : string) (es : list (string * node)) : option node :=
  match es with
  | [] => None
  | (k, n) :: es' => if String.eqb k name then Some n else assoc name es'
  end.

(** Where a path walk stands: the node reached and the directories above it,
    nearest first (what [..] climbs back to). *)
Record cursor : Type := Cursor { ancestors : list node; here : node }.

(** One path component.  An empty component (a doubled or trailing slash)
    and [.] stay in place, and like every component they need a directory
    to stand in. *)
Definition step (cur : cursor) (c : string) : errno + cursor :=
  match here cur with
  | File _ => inl ENOTDIR
  | Dir es =>
      if String.eqb c "" || String.eqb c "." then inr cur
      else if String.eqb c ".." then
        match ancestors cur with
        | [] => inr cur
        | p :: up => inr (Cursor up p)
        end
      else
        match assoc c es with
        | Some n => inr (Cursor (here cur :: ancestors cur) n)
        | None => inl ENOENT
        end
  end.

Fixpoint walk (cur : cursor) (comps : list string) : errno + cursor :=
  match comps with
  | [] => inr cur
  | c :: comps' =>
      match step cur c with
      | inl e => inl e
      | inr cur' => walk cur' comps'
      end
  end.

(** [os.stat(path)], reduced to the node found or the error raised. *)
Definition lookup (fs : node) (path : string) : errno + node :=
  if String.eqb path "" then inl ENOENT
  else match walk (Cursor [] fs) (Str.split "/" path) with
       | inl e => inl e
       | inr cur => inr (here cur)
       end.

(** [os.path.isfile] and [os.path.isdir]: false on every error. *)
Definition isfile (fs : node) (path : string) : bool :=
  match lookup fs path with
  | inr (File _) => true
  | _ => false
  end.

Definition isdir (fs : node) (path : string) : bool :=
  match lookup fs path with
  | inr (Dir _) => true
  | _ => false
  end.

(** [open(path, 'rb').read()]: the bytes of a regular file, or the error. *)
Definition open_read (fs : node) (path : string) : errno + list Byte.byte :=
  match lookup fs path with
  | inl e => inl e
  | inr (Dir _) => inl EISDIR
  | inr (File data) => inr data
  end.

(** [os.path.basename(p)]: what follows the last slash. *)
Definition basename (p : string) : string :=
  last (Str.split "/" p) EmptyString.

(** *** [glob]

    [glob dirname] is [glob.glob(f"{dirname}/*")] for a [dirname] without
    wildcard characters, as [_iglob] and [_glob1] compute it: the directory
    is listed ([_listdir], empty on any [OSError]), hidden names are dropped
    ([_ishidden]), the pattern [*] keeps every other name, and each name is
    joined back to [dirname]. *)

Definition _listdir (fs : node) (dirname : string) : list string :=
  match lookup fs dirname with
  | inr (Dir es) => map fst es
  | _ => []
  end.

Definition _ishidden (name : string) : bool :=
  match name with
  | String "."%char _ => true
  | _ => false
  end.

Definition _glob1 (fs : node) (dirname : string) : list string :=
  filter (fun x => negb (_ishidden x)) (_listdir fs dirname).

Definition glob (fs : node) (dirname : string) : list string :=
  map (fun name => dirname ++ "/" ++ name) (_glob1 fs dirname).

(** *** Well-formed trees

    What every real directory guarantees: a name is not empty, is neither
    [.] nor [..], holds no slash, and names one entry only. *)

Definition valid_name (n : string) : bool :=
  negb (String.eqb n "") && negb (String.eqb n ".") &&
  negb (String.eqb n "..") && negb (Str.mem "/" n).

Fixpoint distinct (l : list string) : bool :=
  match l with
  | [] => true
  | x :: l' => negb (existsb (String.eqb x) l') && distinct l'
  end.

Fixpoint wf (n : node) : bool :=
  match n with
  | File _ => true
  | Dir es =>
      forallb valid_name (map fst es) && distinct (map fst es) &&
      forallb (fun e => wf (snd e)) es
  end.

(** ** Effects: logging and exceptions *)

Inductive exception : Type :=
  | OSError (e : errno) (filename : string)
  | FormatError (template : string)
  | LibraryError (message : string).

Inductive log_record : Type :=
  | INFO (message : string)
  | ERROR (message : string).

Inductive result (A : Type) : Type :=
  | Ok (a : A)
  | Raise (e : exception).
Arguments Ok {A} a.
Arguments Raise {A} e.

(** A computation: the records it logged, in order, and how it ended. *)
Definition Py (A : Type) : Type := (list log_record * result A)%type.

Definition ret {A} (a : A) : Py A := ([], Ok a).
Definition raise {A} (e : exception) : Py A := ([], Raise e).
Definition bind {A B} (m : Py A) (k : A -> Py B) : Py B :=
  match m with
  | (l, Raise e) => (l, Raise e)
  | (l, Ok a) => let '(l', r) := k a in ((l ++ l')%list, r)
  end.
Definition Logger_info (msg : string) : Py unit := ([INFO msg], Ok tt).
Definition Logger_error (msg : string) : Py unit := ([ERROR msg], Ok tt).

(** [try: m  except Exception as e: h e], then [k] on the value of [m]. *)
Definition try_except {A B} (m : Py A) (h : exception -> Py B) (k : A -> Py B)
  : Py B :=
  match m with
  | (l, Raise e) => let '(l', r) := h e in ((l ++ l')%list, r)
  | (l, Ok a) => let '(l', r) := k a in ((l ++ l')%list, r)
  end.

Notation "x <- m ;; k" := (bind m (fun x => k))
  (at level 61, m at next level, right associativity).
Notation "m ;;; k" := (bind m (fun _ => k))
  (at level 61, right associativity).

Definition logged {A} (m : Py A) : list log_record := fst m.
Definition outcome {A} (m : Py A) : result A := snd m.

(** [template.format] with keyword arguments [kw], inside a computation. *)
Definition py_format (template : string) (kw : kwargs) : Py string :=
  match format template kw with
  | Some s => ret s
  | None => raise (FormatError template)
  end.

(** A [for] loop that threads the loop-carried state [s]. *)
Fixpoint for_each {S X : Type} (body : S -> X -> Py S) (xs : list X) (s : S)
  : Py S :=
  match xs with
  | [] => ret s
  | x :: xs' => s' <- body s x ;; for_each body xs' s'
  end.

(** ** [get_triggers] *)

Definition scan_candidate (fs : node) (triggers : list string)
    (possible_trigger_dir : string) : Py (list string) :=
  let triggerID := basename possible_trigger_dir in
  Logger_info ("Scanning " ++ triggerID ++ " for output") ;;;
  cat_file <- py_format CATALOG_FILENAME
                [("basepath", BASEPATH); ("triggerID", triggerID)] ;;
  if isfile fs cat_file then ret (triggers ++ [triggerID])%list
  else ret triggers.

Definition get_triggers (fs : node) : Py (list string) :=
  let possible_trigger_dirs := glob fs BASEPATH in
  for_each (scan_candidate fs) possible_trigger_dirs [].

(** ** Library code the module calls

    pandas and the text of an exception are not part of this program; the
    handlers are stated over any implementation of them.  [read_csv_buffer]
    is the parser proper, run on the bytes of an opened file with the
    [parse_dates] column list; [to_json_table] is
    [df.to_json(index=False, orient='table')]; [exc_str e] is [str(e)]. *)

Class Library : Type := {
  DataFrame : Type;
  read_csv_buffer : list Byte.byte -> list nat -> result DataFrame;
  df_len : DataFrame -> nat;
  to_json_table : DataFrame -> string;
  exc_str : exception -> string
}.

(** [pd.read_csv(filepath_or_buffer=filename, parse_dates=...)]: the file is
    opened first, and only the bytes of an opened file reach the parser. *)
Definition read_csv `{Library} (fs : node) (filename : string)
    (parse_dates : list nat) : Py DataFrame :=
  match open_read fs filename with
  | inl e => raise (OSError e filename)
  | inr data => ([], read_csv_buffer data parse_dates)
  end.

(** [str(n)] for a natural number. *)
Definition str_nat (n : nat) : string :=
  DecimalString.NilEmpty.string_of_uint (Nat.to_uint n).

(** ** [get_catalog] and [get_sources] *)

Definition get_catalog `{Library} (fs : node) (triggerID : string)
  : Py DataFrame :=
  filename <- py_format CATALOG_FILENAME
                [("basepath", BASEPATH); ("triggerID", triggerID)] ;;
  Logger_info ("Reading from " ++ filename) ;;;
  (if negb (isfile fs filename)
   then Logger_error (filename ++ " does not exist")
   else ret tt) ;;;
  df <- read_csv fs filename [1] ;;
  Logger_info ("Read in file of " ++ str_nat (df_len df) ++ " rows") ;;;
  ret df.

Definition get_sources `{Library} (fs : node) (triggerID : string)
  : Py DataFrame :=
  filename <- py_format SOURCE_FILENAME
                [("basepath", BASEPATH); ("triggerID", triggerID)] ;;
  Logger_info ("Reading from " ++ filename) ;;;
  (if negb (isfile fs filename)
   then Logger_error (filename ++ " does not exist")
   else ret tt) ;;;
  df <- read_csv fs filename [1] ;;
  ret df.

(** ** Responses *)

(** What a [StreamingResponse] is given to iterate over: the one-element
    iterator [iter([result])] of the table handlers, or the dictionary
    object of the trigger handler. *)
Inductive iterable : Type :=
  | IterList (chunks : list string)
  | DictObject (items : list (string * list string)).

(** [iter(content)]: a list iterator yields its elements, a dictionary
    yields its keys. *)
Definition iterate (content : iterable) : list string :=
  match content with
  | IterList chunks => chunks
  | DictObject items => map fst items
  end.

Inductive response : Type :=
  | HTMLResponse (content : string) (status_code : nat)
  | StreamingResponse (content : iterable) (media_type : string)
      (headers : list (string * string))
  | FileResponse (path : string)
  | ReturnedStr (s : string).

(** The bytes a streamed or file response sends: the chunks of the body
    iterator one after the other, or the content of the file.  (A returned
    [str] is serialised by the framework and is not given a body here.) *)
Definition body (fs : node) (r : response) : option (list Byte.byte) :=
  match r with
  | HTMLResponse content _ => Some (list_byte_of_string content)
  | StreamingResponse content _ _ =>
      Some (list_byte_of_string (String.concat "" (iterate content)))
  | FileResponse path =>
      match open_read fs path with
      | inr data => Some data
      | inl _ => None
      end
  | ReturnedStr _ => None
  end.

(** ** [repr] of a list of strings

    [repr] of a [str] picks the quote (double quotes only when the text
    holds a single quote and no double quote) and escapes the quote, the
    backslash, newline, carriage return and tab.  Other control characters
    and text outside ASCII are not modelled; the module applies [repr] to
    [KNOWN_PLOT_TYPES] only. *)

Definition dquote : ascii := "034"%char.
Definition squote : ascii := "039"%char.

Definition repr_char (q c : ascii) : string :=
  if Ascii.eqb c "\"%char then "\\"
  else if Ascii.eqb c q then String "\"%char (String q EmptyString)
  else if Ascii.eqb c "010"%char then "\n"
  else if Ascii.eqb c "013"%char then "\r"
  else if Ascii.eqb c "009"%char then "\t"
  else String c EmptyString.

Fixpoint repr_chars (q : ascii) (s : string) : string :=
  match s with
  | EmptyString => EmptyString
  | String c s' => repr_char q c ++ repr_chars q s'
  end.

Definition repr_str (s : string) : string :=
  let q := if Str.mem squote s && negb (Str.mem dquote s)
           then dquote else squote in
  String q (repr_chars q s ++ String q EmptyString).

Definition repr_list (l : list string) : string :=
  "[" ++ Str.join ", " (map repr_str l) ++ "]".

(** ** Request handlers

    Every handler of the module is a function called [root]; here each
    carries the name of its route. *)

(** [plot_type in KNOWN_PLOT_TYPES]. *)
Definition is_known (plot_type : string) : bool :=
  existsb (String.eqb plot_type) KNOWN_PLOT_TYPES.

(** [GET /triggers/] *)
Definition root_triggers `{Library} (fs : node) : Py response :=
  try_except (get_triggers fs)
    (fun e => ret (ReturnedStr ("ERROR: " ++ exc_str e)))
    (fun trigger_ids =>
       ret (StreamingResponse
              (DictObject [("trigger_ids", trigger_ids)])
              "application/json"
              [("Content-Disposition", "attachment;filename=trigger_IDs.json")])).

(** [GET /catalog/?triggerID=...] *)
Definition root_catalog `{Library} (fs : node) (triggerID : string)
  : Py response :=
  try_except (get_catalog fs triggerID)
    (fun e => ret (ReturnedStr ("ERROR: " ++ exc_str e)))
    (fun cat_df =>
       let result := to_json_table cat_df in
       ret (StreamingResponse
              (IterList [result])
              "text/json"
              [("Content-Disposition",
                "attachment;filename=<" ++ triggerID ++ "_catalog.json")])).

(** [GET /sources/?triggerID=...] *)
Definition root_sources `{Library} (fs : node) (triggerID : string)
  : Py response :=
  try_except (get_sources fs triggerID)
    (fun e => ret (ReturnedStr ("ERROR: " ++ exc_str e)))
    (fun source_df =>
       let result := to_json_table source_df in
       ret (StreamingResponse
              (IterList [result])
              "text/json"
              [("Content-Disposition",
                "attachment;filename=<" ++ triggerID ++ "_source.json")])).

(** The page of the first [return] of the plot handler (the token is not in
    [KNOWN_PLOT_TYPES]). *)
Definition unknown_type_page (plot_type : string) : string :=
  "
    <html>
        <p>" ++ plot_type ++ " is not a known plot format.</p>
        <p>Known plot types:</p>
        <p>" ++ repr_list KNOWN_PLOT_TYPES ++ "</p>
    </html>
    ".

(** The page of the second [return] of the plot handler (the plot file is
    not there). *)
Definition missing_file_page (plot_type : string) : string :=
  "
    <html>
        <p>" ++ plot_type ++ " is not a known plot format.</p>
        <p>Known plot types:</p>
        <p>" ++ repr_list KNOWN_PLOT_TYPES ++ "</p>
    </html>
    ".

(** [GET /plots/?triggerID=...&plot_type=...] *)
Definition root_plots (fs : node) (triggerID plot_type : string)
  : Py response :=
  if negb (is_known plot_type) then
    Logger_error (plot_type ++ " not in known types.") ;;;
    ret (HTMLResponse (unknown_type_page plot_type) 400)
  else
    plotfile <- py_format PLOT_FILENAME
                  [("triggerID", triggerID); ("basepath", BASEPATH);
                   ("plot_type", plot_type)] ;;
    if negb (isfile fs plotfile) then
      Logger_error (plotfile ++ " does not exist") ;;;
      ret (HTMLResponse (missing_file_page plot_type) 400)
    else ret (FileResponse plotfile).

(** ** The trigger table

    The links of the table are built from the constants below. *)

Definition HOST : string := "0.0.0.0".
Definition PORT : string := "8000".
Definition CATS : string :=
  "http://{host}:{port}/catalog/?triggerID={triggerID}".
Definition TRIGGERS : string := "http://{host}:{port}/triggers".
Definition PLOTS : string :=
  "http://{host}:{port}/plots/?triggerID={triggerID}&plot_type={plot_type}".
Definition SOURCES : string :=
  "http://{host}:{port}/sources/?triggerID={triggerID}".

(** A line feed and a double quote, as one-character strings. *)
Definition nl : string := String "010"%char EmptyString.
Definition dq : string := String dquote EmptyString.

(** The head of the table: three fixed columns, then one column per known
    plot type, appended by the first loop of the handler. *)
Definition trigger_table_head : string :=
  fold_left
    (fun head plot_type => head ++ nl ++ "<th>" ++ plot_type ++ " URL</th>")
    KNOWN_PLOT_TYPES
    "
    <table>
        <tr>
            <th>TriggerID</th>
            <th>Catalog-URL</th>
            <th>Sources-URL</th>
    "
  ++ nl ++ "</tr>".

Definition trigger_table_foot : string :=
  "
    </table>
    ".

(** One pass of the loop over [trigger_ids]: the row of one trigger. *)
Definition trigger_row (trigger_id : string) : Py string :=
  cat_url <- py_format CATS
               [("host", HOST); ("port", PORT); ("triggerID", trigger_id)] ;;
  source_url <- py_format SOURCES
                  [("host", HOST); ("port", PORT); ("triggerID", trigger_id)] ;;
  row <- for_each
           (fun row plot_type =>
              plot_url <- py_format PLOTS
                            [("host", HOST); ("port", PORT);
                             ("triggerID", trigger_id);
                             ("plot_type", plot_type)] ;;
              ret (row ++ nl ++ "<td><a href=" ++ dq ++ plot_url ++ dq ++ ">" ++
                   plot_type ++ "_latest</a></td>"))
           KNOWN_PLOT_TYPES
           ("
        <tr>
            <td>" ++ trigger_id ++ "</td>
            <td><a href=" ++ dq ++ cat_url ++ dq ++ ">Catalog</a></td>
            <td><a href=" ++ dq ++ source_url ++ dq ++ ">Sources</a></td>
        ") ;;
  ret (row ++ nl ++ "</tr>").

(** [GET /trigger_table/] *)
Definition root_trigger_table (fs : node) : Py response :=
  trigger_ids <- get_triggers fs ;;
  trigger_table_body <-
    for_each (fun body trigger_id =>
                row <- trigger_row trigger_id ;; ret (body ++ [row])%list)
      trigger_ids [] ;;
  let trigger_table_body := Str.join nl trigger_table_body in
  let trigger_table :=
    Str.join nl [trigger_table_head; trigger_table_body; trigger_table_foot] in
  ret (HTMLResponse
         ("
    <html>
        <head>
            <title>RCET RTEQcorrscan triggers</title>
        </head>
        <body>
            <h3>Available triggers:</h3>
            " ++ trigger_table ++ "
        </body>
    </html>
    ") 200).

(** ** Vocabulary of the statements *)

(** The catalog file of a trigger under [BASEPATH], written out. *)
Definition catalog_file (triggerID : string) : string :=
  BASEPATH ++ "/" ++ triggerID ++ "/" ++ triggerID ++ "/output_out/catalog.csv".

(** The record [get_triggers] logs for one candidate path. *)
Definition scan_record (possible_trigger_dir : string) : log_record :=
  INFO ("Scanning " ++ basename possible_trigger_dir ++ " for output").

(** Every node a walk holds is well formed. *)
Definition cursor_wf (cur : cursor) : Prop :=
  wf (here cur) = true /\ Forall (fun n => wf n = true) (ancestors cur).

(** A directory [root] holding the chain of directories [path] and, at its
    end, the entries [es]. *)
Fixpoint nest (path : list string) (es : list (string * node)) : node :=
  match path with
  | [] => Dir es
  | d :: path' => Dir [(d, nest path' es)]
  end.

(** The output of one run: [id/id/output_out/catalog.csv]. *)
Definition run_output (triggerID : string) (catalog : list Byte.byte)
  : string * node :=
  (triggerID,
   Dir [(triggerID, Dir [("output_out", Dir [("catalog.csv", File catalog)])])]).

(** The scenario of the specification: a run with a catalog next to an
    empty directory. *)
Definition scenario_fs : node :=
  nest ["tmp"; "outputs"; "detections"]
    [run_output "2014p051675" []; ("empty_dir", Dir [])].

(** A run kept in a directory whose name begins with a dot. *)
Definition hidden_fs : node :=
  nest ["tmp"; "outputs"; "detections"] [run_output ".2014p051675" []].

(** A file system without the base directory. *)
Definition bare_fs : node := nest ["tmp"] [].

(** The plot file of a trigger and plot kind under [BASEPATH], written out. *)
Definition plot_file (triggerID plot_type : string) : string :=
  BASEPATH ++ "/" ++ triggerID ++ "/" ++ triggerID ++ "/plotter_out/" ++
  plot_type ++ "_latest.png".

(** A run with a catalog and one rendered plot. *)
Definition plotted_fs : node :=
  nest ["tmp"; "outputs"; "detections"]
    [("2014p051675",
      Dir [("2014p051675",
            Dir [("output_out", Dir [("catalog.csv", File [])]);
                 ("plotter_out",
                  Dir [("focal_sphere_latest.png",
                        File [Byte.x89; Byte.x50; Byte.x4e; Byte.x47])])])])].

(** A stand-in for the library, to run the handlers on examples: a table is
    the list of the lines of the file, nothing is typed. *)
Definition line_library : Library := {|
  DataFrame := list string;
  read_csv_buffer := fun data _ =>
    Ok (Str.split "010"%char (string_of_list_byte data));
  df_len := fun df => length df;
  to_json_table := fun df => "[" ++ Str.join "," df ++ "]";
  exc_str := fun e =>
    match e with
    | OSError _ filename => filename
    | FormatError template => template
    | LibraryError message => message
    end
|}.

(** The source-summary file of a trigger under [BASEPATH], written out. *)
Definition source_file (triggerID : string) : string :=
  BASEPATH ++ "/" ++ triggerID ++ "/" ++ triggerID ++
  "/plotter_out/output_metrics_summary_file.csv".

(** The base directory holding the entries [runs]. *)
Definition site (runs : list (string * node)) : node :=
  nest ["tmp"; "outputs"; "detections"] runs.

(** The links of the trigger table, written out. *)
Definition catalog_url (triggerID : string) : string :=
  "http://" ++ HOST ++ ":" ++ PORT ++ "/catalog/?triggerID=" ++ triggerID.

Definition sources_url (triggerID : string) : string :=
  "http://" ++ HOST ++ ":" ++ PORT ++ "/sources/?triggerID=" ++ triggerID.

Definition plot_url (triggerID plot_type : string) : string :=
  "http://" ++ HOST ++ ":" ++ PORT ++ "/plots/?triggerID=" ++ triggerID ++
  "&plot_type=" ++ plot_type.

(** An HTML anchor, as the rows of the table write it. *)
Definition anchor (url text : string) : string :=
  "<a href=" ++ dq ++ url ++ dq ++ ">" ++ text ++ "</a>".

(** The text [trigger_row] builds: the opening cells, one cell per known
    plot type, and the closing tag. *)
Definition row_cell (triggerID : string) (row plot_type : string) : string :=
  row ++ nl ++ "<td><a href=" ++ dq ++ plot_url triggerID plot_type ++ dq ++
  ">" ++ plot_type ++ "_latest</a></td>".

Definition row_start (triggerID : string) : string :=
  "
        <tr>
            <td>" ++ triggerID ++ "</td>
            <td><a href=" ++ dq ++ catalog_url triggerID ++ dq ++ ">Catalog</a></td>
            <td><a href=" ++ dq ++ sources_url triggerID ++ dq ++ ">Sources</a></td>
        ".

Definition row_text (triggerID : string) : string :=
  fold_left (row_cell triggerID) KNOWN_PLOT_TYPES (row_start triggerID)
  ++ nl ++ "</tr>".

(** The page of the trigger table around the rows [rows]. *)
Definition table_page (rows : list string) : string :=
  "
    <html>
        <head>
            <title>RCET RTEQcorrscan triggers</title>
        </head>
        <body>
            <h3>Available triggers:</h3>
            " ++
  Str.join nl [trigger_table_head; Str.join nl rows; trigger_table_foot] ++ "
        </body>
    </html>
    ".

(** Has a log an [ERROR] record? *)
Definition has_error (l : list log_record) : bool :=
  existsb (fun r => match r with ERROR _ => true | INFO _ => false end) l.


(** A stand-in for the library whose parser refuses a file without bytes,
    to run the handlers on a parse failure. *)
Definition strict_library : Library := {|
  DataFrame := list string;
  read_csv_buffer := fun data _ =>
    match data with
    | [] => Raise (LibraryError "No columns to parse from file")
    | _ => Ok (Str.split "010"%char (string_of_list_byte data))
    end;
  df_len := fun df => length df;
  to_json_table := fun df => "[" ++ Str.join "," df ++ "]";
  exc_str := fun e =>
    match e with
    | OSError _ filename => filename
    | FormatError template => template
    | LibraryError message => message
    end
|}.

(** * Properties *)

(** ** Strings and paths *)

Lemma split_cons (sep c : ascii) (s : string) :
  Str.split sep (String c s) =
  if Ascii.eqb c sep then EmptyString :: Str.split sep s
  else match Str.split sep s with
       | [] => [String c EmptyString]
       | p :: ps => String c p :: ps
       end.
Proof. reflexivity. Qed.

Lemma split_not_nil (sep : ascii) (s : string) : Str.split sep s <> [].
Proof.
  destruct s as [|c s]; [discriminate|]. rewrite split_cons.
  destruct (Ascii.eqb c sep); [discriminate|].
  destruct (Str.split sep s); discriminate.
Qed.

Lemma split_app (sep : ascii) (a b : string) :
  Str.split sep (a ++ String sep b) = (Str.split sep a ++ Str.split sep b)%list.
Proof.
  induction a as [|c a IH].
  - change (EmptyString ++ String sep b) with (String sep b).
    rewrite split_cons, Ascii.eqb_refl. reflexivity.
  - change (String c a ++ String sep b) with (String c (a ++ String sep b)).
    rewrite !split_cons, IH.
    destruct (Ascii.eqb c sep); [reflexivity|].
    pose proof (split_not_nil sep a) as Hne.
    destruct (Str.split sep a); [contradiction|reflexivity].
Qed.

Lemma split_no_sep (sep : ascii) (n : string) :
  Str.mem sep n = false -> Str.split sep n = [n].
Proof.
  induction n as [|c n IH]; [reflexivity|].
  rewrite split_cons. simpl. intros H.
  apply orb_false_iff in H as [Hc Hn].
  rewrite Hc, (IH Hn). reflexivity.
Qed.

Lemma basename_join (d n : string) :
  Str.mem "/" n = false -> basename (d ++ "/" ++ n) = n.
Proof.
  intros Hn. unfold basename. simpl (String.append "/" n).
  rewrite split_app, (split_no_sep _ _ Hn). apply last_last.
Qed.

Lemma append_assoc (a b c : string) : a ++ b ++ c = (a ++ b) ++ c.
Proof. induction a as [|x a IH]; simpl; [reflexivity | now rewrite IH]. Qed.

Lemma prefix_app (n b : string) : String.prefix n (n ++ b) = true.
Proof.
  induction n as [|c n IH]; simpl; [now destruct b|].
  destruct (ascii_dec c c); [exact IH | contradiction].
Qed.

Lemma contains_unfold (n s : string) :
  Str.contains n s =
  String.prefix n s ||
  match s with
  | EmptyString => false
  | String _ s' => Str.contains n s'
  end.
Proof. destruct s; reflexivity. Qed.

Lemma contains_here (n b : string) : Str.contains n (n ++ b) = true.
Proof. rewrite contains_unfold, prefix_app. reflexivity. Qed.

Lemma contains_app_r (n a s : string) :
  Str.contains n s = true -> Str.contains n (a ++ s) = true.
Proof.
  intros H. induction a as [|c a IH]; simpl; [exact H|].
  rewrite IH. apply orb_true_r.
Qed.

Lemma contains_mid (n a b : string) : Str.contains n (a ++ n ++ b) = true.
Proof. apply contains_app_r, contains_here. Qed.

(** ** Walking the tree *)

Lemma walk_app (cur : cursor) (l1 l2 : list string) :
  walk cur (l1 ++ l2)%list =
  match walk cur l1 with
  | inl e => inl e
  | inr cur' => walk cur' l2
  end.
Proof.
  revert cur. induction l1 as [|c l1 IH]; intros cur; simpl; [reflexivity|].
  destruct (step cur c); [reflexivity | apply IH].
Qed.

Lemma step_needs_dir (cur cur' : cursor) (c : string) :
  step cur c = inr cur' -> exists es, here cur = Dir es.
Proof.
  unfold step. destruct (here cur) as [d|es]; [discriminate|]. now exists es.
Qed.

Lemma lookup_join (fs : node) (d r : string) :
  lookup fs (d ++ "/" ++ r) =
  match walk (Cursor [] fs) (Str.split "/" d) with
  | inl e => inl e
  | inr cur =>
      match walk cur (Str.split "/" r) with
      | inl e => inl e
      | inr cur' => inr (here cur')
      end
  end.
Proof.
  unfold lookup. simpl (String.append "/" r).
  replace (String.eqb (d ++ String "/" r) "") with false
    by (now destruct d).
  rewrite split_app, walk_app.
  destruct (walk (Cursor [] fs) (Str.split "/" d)); reflexivity.
Qed.

(** A path below [d/name] resolves only when [d/name] is a directory. *)
Lemma isfile_below_isdir (fs : node) (d name rest : string) :
  Str.mem "/" name = false ->
  isfile fs (d ++ "/" ++ name ++ "/" ++ rest) = true ->
  isdir fs (d ++ "/" ++ name) = true.
Proof.
  intros Hn. unfold isfile, isdir.
  rewrite !lookup_join. simpl (String.append "/" rest).
  destruct (walk (Cursor [] fs) (Str.split "/" d)) as [e|cur]; [discriminate|].
  rewrite split_app, walk_app, (split_no_sep _ _ Hn).
  destruct (walk cur [name]) as [e|cur1] eqn:E1; [discriminate|].
  destruct (Str.split "/" rest) as [|c cs] eqn:Er;
    [now apply split_not_nil in Er|].
  simpl. destruct (step cur1 c) as [e|cur2] eqn:E2; [discriminate|].
  intros _. apply step_needs_dir in E2 as [es ->]. reflexivity.
Qed.

(** ** Well-formed trees stay well formed along a walk *)

Lemma wf_child (es : list (string * node)) (c : string) (n : node) :
  wf (Dir es) = true -> assoc c es = Some n -> wf n = true.
Proof.
  simpl. intros H. apply andb_true_iff in H as [_ H].
  induction es as [|[k m] es IH]; simpl in *; [discriminate|].
  apply andb_true_iff in H as [Hm Hes].
  destruct (String.eqb k c); [intros [= <-]; exact Hm | exact (IH Hes)].
Qed.

Lemma wf_names (es : list (string * node)) (name : string) :
  wf (Dir es) = true -> In name (map fst es) -> valid_name name = true.
Proof.
  simpl. intros H Hin.
  apply andb_true_iff in H as [H _]. apply andb_true_iff in H as [H _].
  rewrite forallb_forall in H. exact (H _ Hin).
Qed.

Lemma step_wf (cur cur' : cursor) (c : string) :
  cursor_wf cur -> step cur c = inr cur' -> cursor_wf cur'.
Proof.
  intros [Hh Ha]. unfold step.
  destruct (here cur) as [d|es] eqn:Eh; [discriminate|].
  destruct (String.eqb c "" || String.eqb c ".").
  { intros [= <-]. split; [now rewrite Eh | exact Ha]. }
  destruct (String.eqb c "..").
  { destruct (ancestors cur) as [|p up] eqn:Ea.
    - intros [= <-]. split; [now rewrite Eh | now rewrite Ea].
    - intros [= <-]. inversion Ha; subst. split; assumption. }
  destruct (assoc c es) as [n|] eqn:En; [|discriminate].
  intros [= <-]. split; simpl.
  - exact (wf_child _ _ _ Hh En).
  - constructor; assumption.
Qed.

Lemma walk_wf (comps : list string) (cur cur' : cursor) :
  cursor_wf cur -> walk cur comps = inr cur' -> cursor_wf cur'.
Proof.
  revert cur. induction comps as [|c comps IH]; intros cur Hcur; simpl.
  - now intros [= <-].
  - destruct (step cur c) as [e|cur1] eqn:E; [discriminate|].
    apply IH. exact (step_wf _ _ _ Hcur E).
Qed.

Lemma lookup_wf (fs : node) (path : string) (n : node) :
  wf fs = true -> lookup fs path = inr n -> wf n = true.
Proof.
  intros Hfs. unfold lookup. destruct (String.eqb path ""); [discriminate|].
  destruct (walk _ _) as [e|cur] eqn:E; [discriminate|].
  intros [= <-]. eapply walk_wf in E as [H _]; [exact H|].
  split; [exact Hfs | constructor].
Qed.

Lemma listdir_valid (fs : node) (dirname name : string) :
  wf fs = true -> In name (_listdir fs dirname) -> valid_name name = true.
Proof.
  intros Hfs. unfold _listdir.
  destruct (lookup fs dirname) as [e|[d|es]] eqn:E; try contradiction.
  apply wf_names. exact (lookup_wf _ _ _ Hfs E).
Qed.

Lemma valid_name_no_slash (name : string) :
  valid_name name = true -> Str.mem "/" name = false.
Proof.
  unfold valid_name. intros H. apply andb_true_iff in H as [_ H].
  now apply negb_true_iff in H.
Qed.

(** ** The trigger scan, in closed form *)

Lemma bind_ret_l {A B : Type} (a : A) (k : A -> Py B) : bind (ret a) k = k a.
Proof. unfold bind, ret. destruct (k a). reflexivity. Qed.

Lemma py_format_catalog (t : string) :
  py_format CATALOG_FILENAME [("basepath", BASEPATH); ("triggerID", t)] =
  ret (catalog_file t).
Proof. reflexivity. Qed.

Lemma catalog_path_file (t : string) :
  catalog_path BASEPATH t = Some (catalog_file t).
Proof. reflexivity. Qed.

Lemma scan_candidate_eq (fs : node) (acc : list string) (x : string) :
  scan_candidate fs acc x =
  ([scan_record x],
   Ok (if isfile fs (catalog_file (basename x))
       then (acc ++ [basename x])%list else acc)).
Proof.
  unfold scan_candidate. rewrite py_format_catalog.
  unfold bind, Logger_info, ret, scan_record.
  destruct (isfile fs (catalog_file (basename x))); reflexivity.
Qed.

Lemma for_each_scan (fs : node) (xs acc : list string) :
  for_each (scan_candidate fs) xs acc =
  (map scan_record xs,
   Ok (acc ++ filter (fun t => isfile fs (catalog_file t)) (map basename xs))%list).
Proof.
  revert acc. induction xs as [|x xs IH]; intros acc.
  - simpl. unfold ret. now rewrite app_nil_r.
  - change (for_each (scan_candidate fs) (x :: xs) acc)
      with (bind (scan_candidate fs acc x)
              (fun s' => for_each (scan_candidate fs) xs s')).
    rewrite scan_candidate_eq. unfold bind. rewrite IH.
    change (map scan_record (x :: xs)) with (scan_record x :: map scan_record xs).
    change (map basename (x :: xs)) with (basename x :: map basename xs).
    cbn [filter app].
    destruct (isfile fs (catalog_file (basename x))); [|reflexivity].
    now rewrite <- app_assoc.
Qed.

Lemma get_triggers_eq (fs : node) :
  get_triggers fs =
  (map scan_record (glob fs BASEPATH),
   Ok (filter (fun t => isfile fs (catalog_file t))
         (map basename (glob fs BASEPATH)))).
Proof. unfold get_triggers. now rewrite for_each_scan. Qed.

(** Under well-formed names the candidates are the names [glob] kept. *)
Lemma basename_glob (fs : node) :
  wf fs = true -> map basename (glob fs BASEPATH) = _glob1 fs BASEPATH.
Proof.
  intros Hfs. unfold glob. rewrite map_map.
  rewrite <- (map_id (_glob1 fs BASEPATH)) at 2.
  apply map_ext_in. intros name Hin. apply basename_join.
  apply valid_name_no_slash, (listdir_valid fs BASEPATH); [exact Hfs|].
  unfold _glob1 in Hin. apply filter_In in Hin. tauto.
Qed.

(** ** Trigger discovery *)

(** C1 (as amended).  On every well-formed file system [get_triggers]
    returns, and the names it returns are exactly the entries of the base
    directory that are directories, do not begin with a dot, and hold an
    existing catalog file at [{base}/{name}/{name}/output_out/catalog.csv].
    In the scenario of the specification (a run [2014p051675] with a catalog
    next to [empty_dir] without one) the result is [["2014p051675"]]. *)
Theorem get_triggers_visible_runs :
  (forall fs : node, wf fs = true ->
     exists triggers : list string,
       outcome (get_triggers fs) = Ok triggers /\
       forall name : string,
         In name triggers <->
         (In name (_listdir fs BASEPATH) /\
          isdir fs (BASEPATH ++ "/" ++ name) = true /\
          _ishidden name = false /\
          exists p, catalog_path BASEPATH name = Some p /\ isfile fs p = true))
  /\ outcome (get_triggers scenario_fs) = Ok ["2014p051675"].
Proof.
  split; [|reflexivity].
  intros fs Hfs. rewrite get_triggers_eq, (basename_glob fs Hfs).
  eexists; split; [reflexivity|]. intros name.
  rewrite filter_In. unfold _glob1. rewrite filter_In, negb_true_iff.
  split.
  - intros [[Hin Hh] Hf]. repeat split; try assumption.
    + apply (isfile_below_isdir fs BASEPATH name
               (name ++ "/output_out/catalog.csv")); [|exact Hf].
      exact (valid_name_no_slash _ (listdir_valid _ _ _ Hfs Hin)).
    + exists (catalog_file name). split; [apply catalog_path_file | exact Hf].
  - intros (Hin & _ & Hh & p & Hp & Hf).
    rewrite catalog_path_file in Hp. injection Hp as <-. tauto.
Qed.

Lemma get_triggers_visible_runs_witness :
  wf scenario_fs = true /\
  exists triggers : list string,
    outcome (get_triggers scenario_fs) = Ok triggers /\
    forall name : string,
      In name triggers <->
      (In name (_listdir scenario_fs BASEPATH) /\
       isdir scenario_fs (BASEPATH ++ "/" ++ name) = true /\
       _ishidden name = false /\
       exists p, catalog_path BASEPATH name = Some p /\
                 isfile scenario_fs p = true).
Proof.
  split; [reflexivity|].
  apply (proj1 get_triggers_visible_runs scenario_fs). reflexivity.
Defined.

(** C1 (as stated) fails: [.2014p051675] is an immediate subdirectory of the
    base directory and its catalog file exists, yet the scan returns
    nothing. *)
Lemma get_triggers_skips_hidden_run :
  wf hidden_fs = true /\
  In ".2014p051675" (_listdir hidden_fs BASEPATH) /\
  isdir hidden_fs (BASEPATH ++ "/" ++ ".2014p051675") = true /\
  (exists p, catalog_path BASEPATH ".2014p051675" = Some p /\
             isfile hidden_fs p = true) /\
  outcome (get_triggers hidden_fs) = Ok [] /\
  ~ (forall fs : node, wf fs = true ->
       forall triggers, outcome (get_triggers fs) = Ok triggers ->
       forall name : string,
         In name triggers <->
         (In name (_listdir fs BASEPATH) /\
          isdir fs (BASEPATH ++ "/" ++ name) = true /\
          exists p, catalog_path BASEPATH name = Some p /\ isfile fs p = true)).
Proof.
  assert (Hp : exists p, catalog_path BASEPATH ".2014p051675" = Some p /\
                         isfile hidden_fs p = true)
    by (eexists; split; reflexivity).
  repeat split; try reflexivity; try exact Hp.
  - left. reflexivity.
  - intros H.
    apply (proj2 (H hidden_fs eq_refl [] eq_refl ".2014p051675")).
    repeat split; try reflexivity; try exact Hp. left. reflexivity.
Qed.

(** C8.  When the base directory does not exist (or is not a directory)
    [get_triggers] logs nothing and returns the empty list: it neither
    raises nor tells the case apart from a base directory without runs. *)
Theorem get_triggers_missing_base (fs : node) :
  isdir fs BASEPATH = false -> get_triggers fs = ([], Ok []).
Proof.
  intros H. rewrite get_triggers_eq. unfold glob, _glob1, _listdir.
  unfold isdir in H.
  destruct (lookup fs BASEPATH) as [e|[d|es]]; try reflexivity; discriminate.
Qed.

Lemma get_triggers_missing_base_witness :
  lookup bare_fs BASEPATH = inl ENOENT /\ get_triggers bare_fs = ([], Ok []).
Proof.
  split; [reflexivity|].
  apply (get_triggers_missing_base bare_fs). reflexivity.
Defined.

(** C9.  A name that begins with a dot is never returned by [get_triggers],
    whether or not its catalog file exists: [glob] drops hidden entries
    before any catalog is looked for. *)
Theorem get_triggers_never_hidden (fs : node) (name : string) :
  wf fs = true -> _ishidden name = true ->
  exists triggers : list string,
    outcome (get_triggers fs) = Ok triggers /\ ~ In name triggers.
Proof.
  intros Hfs Hh. rewrite get_triggers_eq, (basename_glob fs Hfs).
  eexists; split; [reflexivity|].
  rewrite filter_In. unfold _glob1. rewrite filter_In, Hh.
  intros [[_ H] _]. discriminate.
Qed.

Lemma get_triggers_never_hidden_witness :
  isfile hidden_fs (catalog_file ".2014p051675") = true /\
  exists triggers : list string,
    outcome (get_triggers hidden_fs) = Ok triggers /\
    ~ In ".2014p051675" triggers.
Proof.
  split; [reflexivity|].
  apply (get_triggers_never_hidden hidden_fs ".2014p051675"); reflexivity.
Defined.

(** ** Path resolution *)

(** C5.  The three paths are the templates with the arguments written in as
    they are, for every base directory, trigger identifier and plot kind
    (also one with slashes or [..] in it); nothing is looked up, normalised
    or escaped, and each template has exactly two [triggerID] fields. *)
Theorem path_resolution_verbatim (basepath triggerID plot_type : string) :
  catalog_path basepath triggerID =
    Some (basepath ++ "/" ++ triggerID ++ "/" ++ triggerID ++
          "/output_out/catalog.csv") /\
  source_path basepath triggerID =
    Some (basepath ++ "/" ++ triggerID ++ "/" ++ triggerID ++
          "/plotter_out/output_metrics_summary_file.csv") /\
  plot_path basepath triggerID plot_type =
    Some (basepath ++ "/" ++ triggerID ++ "/" ++ triggerID ++
          "/plotter_out/" ++ plot_type ++ "_latest.png") /\
  field_count "triggerID" CATALOG_FILENAME = Some 2 /\
  field_count "triggerID" SOURCE_FILENAME = Some 2 /\
  field_count "triggerID" PLOT_FILENAME = Some 2 /\
  catalog_path BASEPATH "../../etc//{x}" =
    Some "/tmp/outputs/detections/../../etc//{x}/../../etc//{x}/output_out/catalog.csv".
Proof. repeat split. Qed.

(** ** The catalog handler *)

Lemma py_format_plot (t k : string) :
  py_format PLOT_FILENAME
    [("triggerID", t); ("basepath", BASEPATH); ("plot_type", k)] =
  ret (plot_file t k).
Proof. reflexivity. Qed.

Lemma plot_path_file (t k : string) :
  plot_path BASEPATH t k = Some (plot_file t k).
Proof. reflexivity. Qed.

Lemma open_read_not_file (fs : node) (path : string) :
  isfile fs path = false -> exists e, open_read fs path = inl e.
Proof.
  unfold isfile, open_read.
  destruct (lookup fs path) as [e|[d|es]]; [eauto | discriminate | eauto].
Qed.

Lemma open_read_file (fs : node) (path : string) :
  isfile fs path = true -> exists data, open_read fs path = inr data.
Proof.
  unfold isfile, open_read.
  destruct (lookup fs path) as [e|[d|es]]; [discriminate | eauto | discriminate].
Qed.

Lemma get_catalog_missing `{Library} (fs : node) (t : string) (e : errno) :
  isfile fs (catalog_file t) = false ->
  open_read fs (catalog_file t) = inl e ->
  get_catalog fs t =
  ([INFO ("Reading from " ++ catalog_file t);
    ERROR (catalog_file t ++ " does not exist")],
   Raise (OSError e (catalog_file t))).
Proof.
  intros Hf Ho. unfold get_catalog. rewrite py_format_catalog.
  unfold bind at 1. unfold ret at 1.
  unfold read_csv. rewrite Hf, Ho. reflexivity.
Qed.

(** On an existing catalog file the parser is run on its bytes with the
    second column (index 1) as the date column, and whatever it returns or
    raises is the outcome. *)
Lemma get_catalog_reads_file `{Library} (fs : node) (t : string)
    (data : list Byte.byte) :
  lookup fs (catalog_file t) = inr (File data) ->
  outcome (get_catalog fs t) = read_csv_buffer data [1].
Proof.
  intros Hl. unfold get_catalog. rewrite py_format_catalog, bind_ret_l.
  unfold read_csv, open_read, isfile. rewrite Hl.
  unfold bind, Logger_info, ret, outcome. simpl.
  destruct (read_csv_buffer data [1]); reflexivity.
Qed.

Lemma get_sources_reads_file `{Library} (fs : node) (t : string)
    (data : list Byte.byte) :
  lookup fs (BASEPATH ++ "/" ++ t ++ "/" ++ t ++
             "/plotter_out/output_metrics_summary_file.csv") = inr (File data) ->
  outcome (get_sources fs t) = read_csv_buffer data [1].
Proof.
  intros Hl. unfold get_sources.
  change (py_format SOURCE_FILENAME [("basepath", BASEPATH); ("triggerID", t)])
    with (@ret string (BASEPATH ++ "/" ++ t ++ "/" ++ t ++
                       "/plotter_out/output_metrics_summary_file.csv")).
  rewrite bind_ret_l. unfold read_csv, open_read, isfile. rewrite Hl.
  unfold bind, Logger_info, ret, outcome. simpl.
  destruct (read_csv_buffer data [1]); reflexivity.
Qed.

(** C4.  When the catalog file of a trigger does not exist, opening it
    fails; [get_catalog] logs that the file does not exist and raises the
    error of the failed [open], so the parser is never given anything to
    build a table from, and the handler answers with the error text in
    place of a table. *)
Theorem root_catalog_missing_file `{Library} (fs : node)
    (triggerID filename : string) :
  catalog_path BASEPATH triggerID = Some filename ->
  isfile fs filename = false ->
  exists e : errno,
    open_read fs filename = inl e /\
    get_catalog fs triggerID =
      ([INFO ("Reading from " ++ filename);
        ERROR (filename ++ " does not exist")],
       Raise (OSError e filename)) /\
    outcome (root_catalog fs triggerID) =
      Ok (ReturnedStr ("ERROR: " ++ exc_str (OSError e filename))).
Proof.
  rewrite catalog_path_file. intros [= <-] Hf.
  destruct (open_read_not_file _ _ Hf) as [e He]. exists e.
  split; [exact He|].
  pose proof (get_catalog_missing fs triggerID e Hf He) as Hg.
  split; [exact Hg|].
  unfold root_catalog. rewrite Hg. reflexivity.
Qed.

Lemma root_catalog_missing_file_witness :
  exists e : errno,
    open_read scenario_fs (catalog_file "empty_dir") = inl e /\
    @get_catalog line_library scenario_fs "empty_dir" =
      ([INFO ("Reading from " ++ catalog_file "empty_dir");
        ERROR (catalog_file "empty_dir" ++ " does not exist")],
       Raise (OSError e (catalog_file "empty_dir"))) /\
    outcome (@root_catalog line_library scenario_fs "empty_dir") =
      Ok (ReturnedStr
            ("ERROR: " ++
             @exc_str line_library (OSError e (catalog_file "empty_dir")))).
Proof.
  apply (@root_catalog_missing_file line_library scenario_fs "empty_dir");
    reflexivity.
Defined.

(** ** The plot handler *)

Lemma root_plots_unknown (fs : node) (t k : string) :
  is_known k = false ->
  root_plots fs t k =
  ([ERROR (k ++ " not in known types.")],
   Ok (HTMLResponse (unknown_type_page k) 400)).
Proof. intros Hk. unfold root_plots. rewrite Hk. reflexivity. Qed.

Lemma root_plots_missing (fs : node) (t k : string) :
  is_known k = true -> isfile fs (plot_file t k) = false ->
  root_plots fs t k =
  ([ERROR (plot_file t k ++ " does not exist")],
   Ok (HTMLResponse (missing_file_page k) 400)).
Proof.
  intros Hk Hf. unfold root_plots.
  rewrite Hk, py_format_plot, bind_ret_l, Hf. reflexivity.
Qed.

Lemma root_plots_found (fs : node) (t k : string) :
  is_known k = true -> isfile fs (plot_file t k) = true ->
  root_plots fs t k = ([], Ok (FileResponse (plot_file t k))).
Proof.
  intros Hk Hf. unfold root_plots.
  rewrite Hk, py_format_plot, bind_ret_l, Hf. reflexivity.
Qed.

(** The two pages of the handler are the same text. *)
Lemma missing_file_page_eq (k : string) :
  missing_file_page k = unknown_type_page k.
Proof. reflexivity. Qed.

Lemma page_says_not_known (k : string) :
  Str.contains (k ++ " is not a known plot format.") (unknown_type_page k) = true.
Proof.
  unfold unknown_type_page. apply contains_app_r.
  change (k ++ " is not a known plot format.</p>
        <p>Known plot types:</p>
        <p>" ++ repr_list KNOWN_PLOT_TYPES ++ "</p>
    </html>
    ")
    with (k ++ " is not a known plot format." ++ "</p>
        <p>Known plot types:</p>
        <p>" ++ repr_list KNOWN_PLOT_TYPES ++ "</p>
    </html>
    ").
  rewrite append_assoc. apply contains_here.
Qed.

Lemma page_lists_known_types (k : string) :
  Str.contains (repr_list KNOWN_PLOT_TYPES) (unknown_type_page k) = true /\
  Forall (fun kind => Str.contains kind (unknown_type_page k) = true)
    KNOWN_PLOT_TYPES.
Proof.
  unfold unknown_type_page. split.
  - do 3 apply contains_app_r. apply contains_here.
  - repeat constructor; do 2 apply contains_app_r; vm_compute; reflexivity.
Qed.

Lemma is_known_In (k : string) : is_known k = true <-> In k KNOWN_PLOT_TYPES.
Proof.
  unfold is_known. rewrite existsb_exists. split.
  - intros (x & Hin & Heq). apply String.eqb_eq in Heq. now subst.
  - intros Hin. exists k. split; [exact Hin | apply String.eqb_refl].
Qed.

Lemma not_known_In (k : string) : is_known k = false <-> ~ In k KNOWN_PLOT_TYPES.
Proof.
  rewrite <- is_known_In. destruct (is_known k); split; intros H.
  - discriminate.
  - now elim H.
  - discriminate.
  - reflexivity.
Qed.

(** C6.  A request to [/plots/] whose [plot_type] is not one of the 8 known
    kinds, or whose resolved plot file is not an existing file, is answered
    with status 400 and a page that holds the list of the 8 known kinds (the
    text of the list, hence each kind); every other request is answered with
    the resolved plot file, whose bytes are the body. *)
Theorem root_plots_response (fs : node) (triggerID plot_type plotfile : string) :
  plot_path BASEPATH triggerID plot_type = Some plotfile ->
  length KNOWN_PLOT_TYPES = 8 /\
  (~ In plot_type KNOWN_PLOT_TYPES \/ isfile fs plotfile = false ->
   exists content : string,
     outcome (root_plots fs triggerID plot_type) = Ok (HTMLResponse content 400) /\
     Str.contains (repr_list KNOWN_PLOT_TYPES) content = true /\
     Forall (fun kind => Str.contains kind content = true) KNOWN_PLOT_TYPES) /\
  (In plot_type KNOWN_PLOT_TYPES /\ isfile fs plotfile = true ->
   exists data : list Byte.byte,
     outcome (root_plots fs triggerID plot_type) = Ok (FileResponse plotfile) /\
     lookup fs plotfile = inr (File data) /\
     body fs (FileResponse plotfile) = Some data).
Proof.
  rewrite plot_path_file. intros [= <-].
  split; [reflexivity|]. split.
  - intros Hbad. exists (unknown_type_page plot_type).
    split; [|apply page_lists_known_types].
    destruct (is_known plot_type) eqn:Hk.
    + destruct Hbad as [Hn|Hf]; [now apply not_known_In in Hn; congruence|].
      rewrite (root_plots_missing _ _ _ Hk Hf), missing_file_page_eq.
      reflexivity.
    + now rewrite (root_plots_unknown _ _ _ Hk).
  - intros [Hk Hf]. apply is_known_In in Hk.
    rewrite (root_plots_found _ _ _ Hk Hf).
    unfold body, open_read. unfold isfile in Hf.
    destruct (lookup fs (plot_file triggerID plot_type)) as [e|[data|es]];
      try discriminate.
    exists data. repeat split.
Qed.

Lemma root_plots_response_witness :
  (exists data : list Byte.byte,
     outcome (root_plots plotted_fs "2014p051675" "focal_sphere") =
       Ok (FileResponse (plot_file "2014p051675" "focal_sphere")) /\
     lookup plotted_fs (plot_file "2014p051675" "focal_sphere") =
       inr (File data) /\
     body plotted_fs (FileResponse (plot_file "2014p051675" "focal_sphere")) =
       Some data) /\
  (exists content : string,
     outcome (root_plots plotted_fs "2014p051675" "catalog_RT") =
       Ok (HTMLResponse content 400) /\
     Str.contains (repr_list KNOWN_PLOT_TYPES) content = true /\
     Forall (fun kind => Str.contains kind content = true) KNOWN_PLOT_TYPES).
Proof.
  split.
  - apply (root_plots_response plotted_fs "2014p051675" "focal_sphere" _ eq_refl).
    split; [simpl; tauto | reflexivity].
  - apply (root_plots_response plotted_fs "2014p051675" "catalog_RT" _ eq_refl).
    right. reflexivity.
Defined.

(** C10.  When [plot_type] is a known kind and the resolved plot file does
    not exist, the handler answers with status 400 and a page that says the
    plot type [is not a known plot format] and lists the known plot types:
    the very page it answers an unknown kind with. *)
Theorem root_plots_missing_file_message (fs : node)
    (triggerID plot_type plotfile : string) :
  In plot_type KNOWN_PLOT_TYPES ->
  plot_path BASEPATH triggerID plot_type = Some plotfile ->
  isfile fs plotfile = false ->
  exists content : string,
    outcome (root_plots fs triggerID plot_type) = Ok (HTMLResponse content 400) /\
    Str.contains (plot_type ++ " is not a known plot format.") content = true /\
    Str.contains (repr_list KNOWN_PLOT_TYPES) content = true /\
    content = unknown_type_page plot_type /\
    forall (fs' : node) (triggerID' plot_type' : string),
      ~ In plot_type' KNOWN_PLOT_TYPES ->
      outcome (root_plots fs' triggerID' plot_type') =
        Ok (HTMLResponse (unknown_type_page plot_type') 400).
Proof.
  intros Hk. rewrite plot_path_file. intros [= <-] Hf.
  apply is_known_In in Hk. exists (missing_file_page plot_type).
  split; [now rewrite (root_plots_missing _ _ _ Hk Hf)|].
  rewrite missing_file_page_eq.
  split; [apply page_says_not_known|].
  split; [apply page_lists_known_types|].
  split; [reflexivity|].
  intros fs' t' k' Hn. apply not_known_In in Hn.
  now rewrite (root_plots_unknown _ _ _ Hn).
Qed.

Lemma root_plots_missing_file_message_witness :
  exists content : string,
    outcome (root_plots plotted_fs "2014p051675" "catalog_RT") =
      Ok (HTMLResponse content 400) /\
    Str.contains ("catalog_RT" ++ " is not a known plot format.") content = true /\
    Str.contains (repr_list KNOWN_PLOT_TYPES) content = true /\
    content = unknown_type_page "catalog_RT" /\
    forall (fs' : node) (triggerID' plot_type' : string),
      ~ In plot_type' KNOWN_PLOT_TYPES ->
      outcome (root_plots fs' triggerID' plot_type') =
        Ok (HTMLResponse (unknown_type_page plot_type') 400).
Proof.
  apply (root_plots_missing_file_message plotted_fs "2014p051675" "catalog_RT"
           (plot_file "2014p051675" "catalog_RT"));
    [simpl; tauto | reflexivity | reflexivity].
Defined.

(** ** The trigger handler *)

(** C7 (the code departs from it).  Whatever the scan finds, the response of
    [/triggers/] streams the keys of the dictionary it was given: its body
    is the eleven bytes [trigger_ids], not an array and not the identifiers.
    In the scenario of the specification the scan finds [2014p051675] and
    the body is still [trigger_ids]. *)
Theorem root_triggers_streams_key `{Library} :
  (forall fs : node,
     exists (trigger_ids : list string) (r : response),
       outcome (get_triggers fs) = Ok trigger_ids /\
       outcome (root_triggers fs) = Ok r /\
       body fs r = Some (list_byte_of_string "trigger_ids")) /\
  outcome (get_triggers scenario_fs) = Ok ["2014p051675"] /\
  (exists r : response,
     outcome (root_triggers scenario_fs) = Ok r /\
     body scenario_fs r = Some (list_byte_of_string "trigger_ids")).
Proof.
  assert (Hall : forall fs : node,
             exists (trigger_ids : list string) (r : response),
               outcome (get_triggers fs) = Ok trigger_ids /\
               outcome (root_triggers fs) = Ok r /\
               body fs r = Some (list_byte_of_string "trigger_ids")).
  { intros fs. unfold root_triggers. rewrite get_triggers_eq.
    do 2 eexists. split; [reflexivity|]. split; reflexivity. }
  split; [exact Hall|]. split; [reflexivity|].
  destruct (Hall scenario_fs) as (ids & r & _ & Hr & Hb). now exists r.
Qed.

(** * Further properties of the module *)

(** ** The order and the log of the trigger scan *)

Lemma distinct_NoDup (l : list string) : distinct l = true -> NoDup l.
Proof.
  induction l as [|x l IH]; simpl; intros H; constructor.
  - apply andb_true_iff in H as [H _]. apply negb_true_iff in H.
    intros Hin. assert (existsb (String.eqb x) l = true) as E; [|congruence].
    apply existsb_exists. exists x. split; [exact Hin | apply String.eqb_refl].
  - apply IH. apply andb_true_iff in H. tauto.
Qed.

Lemma listdir_NoDup (fs : node) (dirname : string) :
  wf fs = true -> NoDup (_listdir fs dirname).
Proof.
  intros Hfs. unfold _listdir.
  destruct (lookup fs dirname) as [e|[d|es]] eqn:E; try constructor.
  apply lookup_wf in E; [|exact Hfs]. simpl in E.
  apply andb_true_iff in E as [E _]. apply andb_true_iff in E as [_ E].
  exact (distinct_NoDup _ E).
Qed.

(** On a well-formed file system [get_triggers] returns the visible entries
    of the base directory that hold a catalog, in the order the directory
    lists them, and each of them once. *)
Theorem get_triggers_listing_order (fs : node) :
  wf fs = true ->
  exists triggers : list string,
    outcome (get_triggers fs) = Ok triggers /\
    triggers =
      filter (fun name => isfile fs (catalog_file name))
        (filter (fun name => negb (_ishidden name)) (_listdir fs BASEPATH)) /\
    NoDup triggers.
Proof.
  intros Hfs. rewrite get_triggers_eq, (basename_glob fs Hfs).
  eexists. split; [reflexivity|]. split; [reflexivity|].
  unfold _glob1. do 2 apply NoDup_filter. exact (listdir_NoDup _ _ Hfs).
Qed.

Lemma get_triggers_listing_order_witness :
  exists triggers : list string,
    outcome (get_triggers scenario_fs) = Ok triggers /\
    triggers =
      filter (fun name => isfile scenario_fs (catalog_file name))
        (filter (fun name => negb (_ishidden name))
           (_listdir scenario_fs BASEPATH)) /\
    NoDup triggers.
Proof. apply (get_triggers_listing_order scenario_fs). reflexivity. Defined.

(** [get_triggers] logs one [INFO] record for every visible entry of the
    base directory, with or without a catalog, in listing order, and no
    other record; a hidden entry leaves no trace in the log. *)
Theorem get_triggers_log (fs : node) :
  wf fs = true ->
  logged (get_triggers fs) =
  map (fun name => INFO ("Scanning " ++ name ++ " for output"))
    (filter (fun name => negb (_ishidden name)) (_listdir fs BASEPATH)).
Proof.
  intros Hfs. rewrite get_triggers_eq. unfold logged. cbn [fst].
  change (filter (fun name => negb (_ishidden name)) (_listdir fs BASEPATH))
    with (_glob1 fs BASEPATH).
  rewrite <- (basename_glob fs Hfs), map_map. reflexivity.
Qed.

Lemma get_triggers_log_witness :
  logged (get_triggers scenario_fs) =
  map (fun name => INFO ("Scanning " ++ name ++ " for output"))
    (filter (fun name => negb (_ishidden name))
       (_listdir scenario_fs BASEPATH)).
Proof. apply (get_triggers_log scenario_fs). reflexivity. Defined.

(** ** The loaders on an existing file *)

Lemma py_format_source (t : string) :
  py_format SOURCE_FILENAME [("basepath", BASEPATH); ("triggerID", t)] =
  ret (source_file t).
Proof. reflexivity. Qed.

Lemma source_path_file (t : string) :
  source_path BASEPATH t = Some (source_file t).
Proof. reflexivity. Qed.

Lemma open_read_isfile (fs : node) (path : string) (data : list Byte.byte) :
  open_read fs path = inr data -> isfile fs path = true.
Proof.
  unfold open_read, isfile.
  destruct (lookup fs path) as [e|[d|es]]; [discriminate | reflexivity | discriminate].
Qed.

Lemma get_catalog_opened `{Library} (fs : node) (t : string)
    (data : list Byte.byte) :
  open_read fs (catalog_file t) = inr data ->
  get_catalog fs t =
  match read_csv_buffer data [1] with
  | Ok df =>
      ([INFO ("Reading from " ++ catalog_file t);
        INFO ("Read in file of " ++ str_nat (df_len df) ++ " rows")], Ok df)
  | Raise e => ([INFO ("Reading from " ++ catalog_file t)], Raise e)
  end.
Proof.
  intros Ho. unfold get_catalog. rewrite py_format_catalog, bind_ret_l.
  unfold read_csv. rewrite (open_read_isfile _ _ _ Ho), Ho.
  destruct (read_csv_buffer data [1]); reflexivity.
Qed.

Lemma get_sources_opened `{Library} (fs : node) (t : string)
    (data : list Byte.byte) :
  open_read fs (source_file t) = inr data ->
  get_sources fs t =
  ([INFO ("Reading from " ++ source_file t)], read_csv_buffer data [1]).
Proof.
  intros Ho. unfold get_sources. rewrite py_format_source, bind_ret_l.
  unfold read_csv. rewrite (open_read_isfile _ _ _ Ho), Ho.
  destruct (read_csv_buffer data [1]); reflexivity.
Qed.

Lemma get_sources_missing `{Library} (fs : node) (t : string) (e : errno) :
  isfile fs (source_file t) = false ->
  open_read fs (source_file t) = inl e ->
  get_sources fs t =
  ([INFO ("Reading from " ++ source_file t);
    ERROR (source_file t ++ " does not exist")],
   Raise (OSError e (source_file t))).
Proof.
  intros Hf Ho. unfold get_sources. rewrite py_format_source, bind_ret_l.
  unfold read_csv. rewrite Hf, Ho. reflexivity.
Qed.

(** When the source-summary file of a trigger is not an existing file,
    [get_sources] logs that it does not exist and raises the error of the
    failed [open] without running the parser, and [/sources/] answers with
    the text [ERROR: ...] of that error. *)
Theorem root_sources_missing_file `{Library} (fs : node)
    (triggerID filename : string) :
  source_path BASEPATH triggerID = Some filename ->
  isfile fs filename = false ->
  exists e : errno,
    open_read fs filename = inl e /\
    get_sources fs triggerID =
      ([INFO ("Reading from " ++ filename);
        ERROR (filename ++ " does not exist")],
       Raise (OSError e filename)) /\
    outcome (root_sources fs triggerID) =
      Ok (ReturnedStr ("ERROR: " ++ exc_str (OSError e filename))).
Proof.
  rewrite source_path_file. intros [= <-] Hf.
  destruct (open_read_not_file _ _ Hf) as [e He]. exists e.
  split; [exact He|].
  pose proof (get_sources_missing fs triggerID e Hf He) as Hg.
  split; [exact Hg|].
  unfold root_sources. rewrite Hg. reflexivity.
Qed.

Lemma root_sources_missing_file_witness :
  exists e : errno,
    open_read scenario_fs (source_file "2014p051675") = inl e /\
    @get_sources line_library scenario_fs "2014p051675" =
      ([INFO ("Reading from " ++ source_file "2014p051675");
        ERROR (source_file "2014p051675" ++ " does not exist")],
       Raise (OSError e (source_file "2014p051675"))) /\
    outcome (@root_sources line_library scenario_fs "2014p051675") =
      Ok (ReturnedStr
            ("ERROR: " ++
             @exc_str line_library
               (OSError e (source_file "2014p051675")))).
Proof.
  apply (@root_sources_missing_file line_library scenario_fs "2014p051675");
    reflexivity.
Defined.





(** When the catalog file opens but the parser raises, [get_catalog] stops
    before its row-count record, and [/catalog/] answers with the text
    [ERROR: ...] of the parser's exception: a file that cannot be parsed is
    reported the same way as a file that is not there. *)
Theorem root_catalog_parse_failure `{Library} (fs : node) (triggerID : string)
    (data : list Byte.byte) (e : exception) :
  open_read fs (catalog_file triggerID) = inr data ->
  read_csv_buffer data [1] = Raise e ->
  root_catalog fs triggerID =
  ([INFO ("Reading from " ++ catalog_file triggerID)],
   Ok (ReturnedStr ("ERROR: " ++ exc_str e))).
Proof.
  intros Ho Hp. unfold root_catalog.
  rewrite (get_catalog_opened _ _ _ Ho), Hp. reflexivity.
Qed.

Lemma root_catalog_parse_failure_witness :
  @root_catalog strict_library scenario_fs "2014p051675" =
  ([INFO ("Reading from " ++ catalog_file "2014p051675")],
   Ok (ReturnedStr ("ERROR: " ++ "No columns to parse from file"))).
Proof.
  apply (@root_catalog_parse_failure strict_library scenario_fs "2014p051675"
           [] (LibraryError "No columns to parse from file")); reflexivity.
Defined.

(** ** Discovery, then loading *)

(** Every identifier [get_triggers] returns can be loaded: its catalog file
    opens, [get_catalog] logs no error for it, and the outcome is what the
    parser makes of the bytes of that file, whatever the file system. *)
Theorem discovered_trigger_loads `{Library} (fs : node)
    (triggers : list string) (name : string) :
  outcome (get_triggers fs) = Ok triggers ->
  In name triggers ->
  exists data : list Byte.byte,
    open_read fs (catalog_file name) = inr data /\
    outcome (get_catalog fs name) = read_csv_buffer data [1] /\
    has_error (logged (get_catalog fs name)) = false.
Proof.
  rewrite get_triggers_eq. intros [= <-] Hin.
  apply filter_In in Hin as [_ Hf].
  destruct (open_read_file _ _ Hf) as [data Ho]. exists data.
  split; [exact Ho|]. rewrite (get_catalog_opened _ _ _ Ho).
  destruct (read_csv_buffer data [1]); split; reflexivity.
Qed.

Lemma discovered_trigger_loads_witness :
  exists data : list Byte.byte,
    open_read scenario_fs (catalog_file "2014p051675") = inr data /\
    outcome (@get_catalog line_library scenario_fs "2014p051675") =
      @read_csv_buffer line_library data [1] /\
    has_error (logged (@get_catalog line_library scenario_fs "2014p051675")) =
      false.
Proof.
  apply (@discovered_trigger_loads line_library scenario_fs ["2014p051675"]);
    [reflexivity | left; reflexivity].
Defined.

(** ** What the plot handler serves *)

(** [/plots/] always answers, and it answers with a file only for a known
    plot type and an existing regular file: the file served is the resolved
    plot path, which begins with the base directory, and nothing is logged
    for it. *)
Theorem root_plots_serves_only_plots (fs : node)
    (triggerID plot_type path : string) :
  outcome (root_plots fs triggerID plot_type) = Ok (FileResponse path) ->
  In plot_type KNOWN_PLOT_TYPES /\
  path = plot_file triggerID plot_type /\
  isfile fs path = true /\
  String.prefix (BASEPATH ++ "/") path = true /\
  logged (root_plots fs triggerID plot_type) = [].
Proof.
  destruct (is_known plot_type) eqn:Hk.
  - destruct (isfile fs (plot_file triggerID plot_type)) eqn:Hf.
    + rewrite (root_plots_found _ _ _ Hk Hf). intros [= <-].
      split; [now apply is_known_In|]. split; [reflexivity|].
      split; [exact Hf|]. split; [|reflexivity].
      exact (prefix_app (BASEPATH ++ "/")
               (triggerID ++ "/" ++ triggerID ++ "/plotter_out/" ++
                plot_type ++ "_latest.png")).
    + rewrite (root_plots_missing _ _ _ Hk Hf). discriminate.
  - rewrite (root_plots_unknown _ _ _ Hk). discriminate.
Qed.

Lemma root_plots_serves_only_plots_witness :
  In "focal_sphere" KNOWN_PLOT_TYPES /\
  plot_file "2014p051675" "focal_sphere" =
    plot_file "2014p051675" "focal_sphere" /\
  isfile plotted_fs (plot_file "2014p051675" "focal_sphere") = true /\
  String.prefix (BASEPATH ++ "/") (plot_file "2014p051675" "focal_sphere") =
    true /\
  logged (root_plots plotted_fs "2014p051675" "focal_sphere") = [].
Proof.
  apply (root_plots_serves_only_plots plotted_fs "2014p051675" "focal_sphere").
  reflexivity.
Defined.

(** ** The trigger table *)

Lemma append_empty_r (s : string) : s ++ "" = s.
Proof. induction s as [|c s IH]; simpl; [reflexivity | now rewrite IH]. Qed.

Lemma prefix_app_l (n a b : string) :
  String.prefix n a = true -> String.prefix n (a ++ b) = true.
Proof.
  revert a. induction n as [|c n IH]; intros a;
    [intros _; now destruct (a ++ b)|].
  destruct a as [|c' a]; simpl; [discriminate|].
  destruct (ascii_dec c c'); [apply IH | discriminate].
Qed.

Lemma contains_app_l (n a b : string) :
  Str.contains n a = true -> Str.contains n (a ++ b) = true.
Proof.
  induction a as [|c a IH]; rewrite contains_unfold.
  - rewrite orb_false_r. intros Hp.
    rewrite contains_unfold, (prefix_app_l _ _ b Hp). reflexivity.
  - intros H. apply orb_true_iff in H as [Hp|Hc].
    + rewrite contains_unfold, (prefix_app_l _ _ b Hp). reflexivity.
    + change (String c a ++ b) with (String c (a ++ b)).
      rewrite contains_unfold, (IH Hc). apply orb_true_r.
Qed.

Lemma contains_join (n sep x : string) (l : list string) :
  In x l -> Str.contains n x = true -> Str.contains n (Str.join sep l) = true.
Proof.
  unfold Str.join. intros Hin Hx.
  induction l as [|y l IH]; [contradiction|].
  destruct l as [|z l].
  - destruct Hin as [->|[]]. exact Hx.
  - change (String.concat sep (y :: z :: l))
      with (y ++ sep ++ String.concat sep (z :: l)).
    destruct Hin as [->|Hin].
    + now apply contains_app_l.
    + do 2 apply contains_app_r. exact (IH Hin).
Qed.

Lemma for_each_pure {S X : Type} (f : S -> X -> S) (body : S -> X -> Py S)
    (xs : list X) (s : S) :
  (forall s' x, body s' x = ret (f s' x)) ->
  for_each body xs s = ret (fold_left f xs s).
Proof.
  intros Hb. revert s. induction xs as [|x xs IH]; intros s; [reflexivity|].
  change (for_each body (x :: xs) s)
    with (bind (body s x) (fun s' => for_each body xs s')).
  rewrite Hb, bind_ret_l. apply IH.
Qed.

Lemma fold_left_snoc {X Y : Type} (g : X -> Y) (l : list X) (acc : list Y) :
  fold_left (fun a x => (a ++ [g x])%list) l acc = (acc ++ map g l)%list.
Proof.
  revert acc. induction l as [|x l IH]; intros acc; simpl.
  - now rewrite app_nil_r.
  - rewrite IH, <- app_assoc. reflexivity.
Qed.

Lemma py_format_cats (t : string) :
  py_format CATS [("host", HOST); ("port", PORT); ("triggerID", t)] =
  ret (catalog_url t).
Proof.
  change (py_format CATS [("host", HOST); ("port", PORT); ("triggerID", t)])
    with (@ret string
            ("http://" ++ HOST ++ ":" ++ PORT ++ "/catalog/?triggerID=" ++ t ++ "")).
  now rewrite append_empty_r.
Qed.

Lemma py_format_sources (t : string) :
  py_format SOURCES [("host", HOST); ("port", PORT); ("triggerID", t)] =
  ret (sources_url t).
Proof.
  change (py_format SOURCES [("host", HOST); ("port", PORT); ("triggerID", t)])
    with (@ret string
            ("http://" ++ HOST ++ ":" ++ PORT ++ "/sources/?triggerID=" ++ t ++ "")).
  now rewrite append_empty_r.
Qed.

Lemma py_format_plots (t k : string) :
  py_format PLOTS
    [("host", HOST); ("port", PORT); ("triggerID", t); ("plot_type", k)] =
  ret (plot_url t k).
Proof.
  change (py_format PLOTS
            [("host", HOST); ("port", PORT); ("triggerID", t); ("plot_type", k)])
    with (@ret string
            ("http://" ++ HOST ++ ":" ++ PORT ++ "/plots/?triggerID=" ++ t ++
             "&plot_type=" ++ k ++ "")).
  now rewrite append_empty_r.
Qed.

Lemma trigger_row_eq (t : string) : trigger_row t = ret (row_text t).
Proof.
  unfold trigger_row.
  rewrite py_format_cats, bind_ret_l, py_format_sources, bind_ret_l.
  rewrite (for_each_pure (row_cell t)).
  - rewrite bind_ret_l. reflexivity.
  - intros row k. rewrite py_format_plots, bind_ret_l. reflexivity.
Qed.

Lemma bind_ok {A B : Type} (l : list log_record) (a : A) (k : A -> Py B) :
  bind (l, Ok a) k = ((l ++ fst (k a))%list, snd (k a)).
Proof. unfold bind. destruct (k a). reflexivity. Qed.

Lemma root_trigger_table_eq (fs : node) (triggers : list string) :
  outcome (get_triggers fs) = Ok triggers ->
  root_trigger_table fs =
  (logged (get_triggers fs),
   Ok (HTMLResponse (table_page (map row_text triggers)) 200)).
Proof.
  unfold root_trigger_table, outcome, logged.
  destruct (get_triggers fs) as [l r]. cbn [fst snd]. intros ->.
  rewrite bind_ok.
  rewrite (for_each_pure (fun body t => (body ++ [row_text t])%list)).
  - rewrite bind_ret_l, fold_left_snoc. unfold ret. cbn [fst snd app].
    now rewrite app_nil_r.
  - intros body t. cbv beta. rewrite trigger_row_eq, bind_ret_l. reflexivity.
Qed.

Lemma row_cell_shape (t row k : string) :
  row_cell t row k =
  (row ++ nl ++ "<td>") ++ anchor (plot_url t k) (k ++ "_latest") ++ "</td>".
Proof. unfold row_cell, anchor. rewrite <- !append_assoc. reflexivity. Qed.

Lemma row_start_shape (t : string) :
  row_start t =
  "
        <tr>
            " ++ ("<td>" ++ t ++ "</td>") ++ "
            <td>" ++ anchor (catalog_url t) "Catalog" ++ "</td>
            <td>" ++ anchor (sources_url t) "Sources" ++ "</td>
        ".
Proof. unfold row_start, anchor. rewrite <- !append_assoc. reflexivity. Qed.

Lemma row_start_cells (t : string) :
  Str.contains ("<td>" ++ t ++ "</td>") (row_start t) = true /\
  Str.contains (anchor (catalog_url t) "Catalog") (row_start t) = true /\
  Str.contains (anchor (sources_url t) "Sources") (row_start t) = true.
Proof.
  rewrite row_start_shape. repeat split.
  - apply contains_app_r, contains_here.
  - do 3 apply contains_app_r. apply contains_here.
  - do 5 apply contains_app_r. apply contains_here.
Qed.

Lemma fold_cells_keep (n t : string) (ks : list string) (row : string) :
  Str.contains n row = true ->
  Str.contains n (fold_left (row_cell t) ks row) = true.
Proof.
  revert row. induction ks as [|k ks IH]; intros row H; [exact H|].
  apply IH. unfold row_cell. now apply contains_app_l.
Qed.

Lemma fold_cells_has (t k : string) (ks : list string) (row : string) :
  In k ks ->
  Str.contains (anchor (plot_url t k) (k ++ "_latest"))
    (fold_left (row_cell t) ks row) = true.
Proof.
  revert row. induction ks as [|k' ks IH]; intros row Hin; [contradiction|].
  destruct Hin as [->|Hin]; [|exact (IH _ Hin)].
  cbn [fold_left]. apply fold_cells_keep. rewrite row_cell_shape.
  apply contains_app_r, contains_here.
Qed.

Lemma join3 (sep a b c : string) :
  Str.join sep [a; b; c] = a ++ sep ++ b ++ sep ++ c.
Proof. reflexivity. Qed.

(** What a row holds, the page holds. *)
Lemma page_holds_row (n row : string) (rows : list string) :
  In row rows -> Str.contains n row = true ->
  Str.contains n (table_page rows) = true.
Proof.
  intros Hin Hn. unfold table_page. rewrite join3.
  apply contains_app_r, contains_app_l.
  do 2 apply contains_app_r. apply contains_app_l.
  exact (contains_join n nl row rows Hin Hn).
Qed.

(** [/trigger_table/] always answers with status 200, and for every
    identifier [get_triggers] returns the page holds a cell with the
    identifier and anchors to its catalog, to its source summary and to each
    of the known plot types; the identifier is written into the cell and
    into the links as it is, with no escaping. *)
Theorem trigger_table_links (fs : node) (triggers : list string) :
  outcome (get_triggers fs) = Ok triggers ->
  exists html : string,
    outcome (root_trigger_table fs) = Ok (HTMLResponse html 200) /\
    forall t : string, In t triggers ->
      Str.contains ("<td>" ++ t ++ "</td>") html = true /\
      Str.contains (anchor (catalog_url t) "Catalog") html = true /\
      Str.contains (anchor (sources_url t) "Sources") html = true /\
      forall k : string, In k KNOWN_PLOT_TYPES ->
        Str.contains (anchor (plot_url t k) (k ++ "_latest")) html = true.
Proof.
  intros Hg. rewrite (root_trigger_table_eq fs triggers Hg).
  eexists. split; [reflexivity|]. intros t Hin.
  assert (Hrow : In (row_text t) (map row_text triggers))
    by (apply in_map; exact Hin).
  destruct (row_start_cells t) as (H1 & H2 & H3).
  assert (Hkeep : forall n, Str.contains n (row_start t) = true ->
                            Str.contains n (row_text t) = true).
  { intros n Hn. unfold row_text. apply contains_app_l.
    now apply fold_cells_keep. }
  repeat split.
  - exact (page_holds_row _ _ _ Hrow (Hkeep _ H1)).
  - exact (page_holds_row _ _ _ Hrow (Hkeep _ H2)).
  - exact (page_holds_row _ _ _ Hrow (Hkeep _ H3)).
  - intros k Hk. apply (page_holds_row _ _ _ Hrow).
    unfold row_text. apply contains_app_l. now apply fold_cells_has.
Qed.

Lemma trigger_table_links_witness :
  exists html : string,
    outcome (root_trigger_table scenario_fs) = Ok (HTMLResponse html 200) /\
    forall t : string, In t ["2014p051675"] ->
      Str.contains ("<td>" ++ t ++ "</td>") html = true /\
      Str.contains (anchor (catalog_url t) "Catalog") html = true /\
      Str.contains (anchor (sources_url t) "Sources") html = true /\
      forall k : string, In k KNOWN_PLOT_TYPES ->
        Str.contains (anchor (plot_url t k) (k ++ "_latest")) html = true.
Proof. apply (trigger_table_links scenario_fs). reflexivity. Defined.

(** When the scan returns no identifier (a missing or empty base directory,
    or one without catalogs), [/trigger_table/] still answers with status
    200: the page has the head of the table, with one column per known plot
    type, and not a single data cell. *)
Theorem trigger_table_without_triggers (fs : node) :
  outcome (get_triggers fs) = Ok [] ->
  exists html : string,
    outcome (root_trigger_table fs) = Ok (HTMLResponse html 200) /\
    Str.contains "<td>" html = false /\
    Str.contains "<th>TriggerID</th>" html = true /\
    Forall (fun k => Str.contains ("<th>" ++ k ++ " URL</th>") html = true)
      KNOWN_PLOT_TYPES.
Proof.
  intros Hg. rewrite (root_trigger_table_eq fs [] Hg).
  eexists. split; [reflexivity|].
  split; [vm_compute; reflexivity|]. split; [vm_compute; reflexivity|].
  repeat constructor; vm_compute; reflexivity.
Qed.

Lemma trigger_table_without_triggers_witness :
  exists html : string,
    outcome (root_trigger_table bare_fs) = Ok (HTMLResponse html 200) /\
    Str.contains "<td>" html = false /\
    Str.contains "<th>TriggerID</th>" html = true /\
    Forall (fun k => Str.contains ("<th>" ++ k ++ " URL</th>") html = true)
      KNOWN_PLOT_TYPES.
Proof. apply (trigger_table_without_triggers bare_fs). reflexivity. Defined.

(** ** The layout contract: runs laid out on disk are found and loaded *)

Lemma assoc_In (es : list (string * node)) (k : string) (n : node) :
  distinct (map fst es) = true -> In (k, n) es -> assoc k es = Some n.
Proof.
  induction es as [|[k' n'] es IH]; [contradiction|].
  cbn [map fst distinct assoc]. intros Hd Hin.
  apply andb_true_iff in Hd as [Hk Hd]. apply negb_true_iff in Hk.
  destruct Hin as [[= -> ->]|Hin].
  - now rewrite String.eqb_refl.
  - destruct (String.eqb k' k) eqn:E; [|exact (IH Hd Hin)].
    apply String.eqb_eq in E. subst k'.
    assert (existsb (String.eqb k) (map fst es) = true) as Hex; [|congruence].
    apply existsb_exists. exists k. split; [|apply String.eqb_refl].
    change k with (fst (k, n)). now apply in_map.
Qed.

Lemma step_into (anc : list node) (es : list (string * node)) (c : string)
    (n : node) :
  valid_name c = true -> assoc c es = Some n ->
  step (Cursor anc (Dir es)) c = inr (Cursor (Dir es :: anc) n).
Proof.
  unfold valid_name. intros Hv Ha.
  apply andb_true_iff in Hv as [Hv _]. apply andb_true_iff in Hv as [Hv H2].
  apply andb_true_iff in Hv as [H0 H1].
  apply negb_true_iff in H0, H1, H2.
  unfold step. cbn [here ancestors]. now rewrite H0, H1, H2, Ha.
Qed.

Lemma lookup_site (es : list (string * node)) :
  lookup (site es) BASEPATH = inr (Dir es).
Proof. reflexivity. Qed.

Lemma lookup_run_catalog (es : list (string * node)) (t : string)
    (data : list Byte.byte) :
  valid_name t = true ->
  assoc t es = Some (snd (run_output t data)) ->
  lookup (site es) (catalog_file t) = inr (File data).
Proof.
  intros Hv Ha. pose proof (valid_name_no_slash _ Hv) as Hs.
  unfold catalog_file. rewrite lookup_join.
  change (walk (Cursor [] (site es)) (Str.split "/" BASEPATH))
    with (@inr errno cursor
            (Cursor [Dir [("detections", Dir es)];
                     Dir [("outputs", Dir [("detections", Dir es)])];
                     site es] (Dir es))).
  change (t ++ "/" ++ t ++ "/output_out/catalog.csv")
    with (t ++ String "/" (t ++ String "/" "output_out/catalog.csv")).
  rewrite !split_app, (split_no_sep _ _ Hs).
  change (Str.split "/" "output_out/catalog.csv")
    with ["output_out"; "catalog.csv"].
  cbn [app walk]. rewrite (step_into _ _ _ _ Hv Ha).
  cbn [run_output snd].
  rewrite (step_into _ [(t, _)] t _ Hv)
    by (cbn [assoc]; now rewrite String.eqb_refl).
  reflexivity.
Qed.

Lemma filter_all {X : Type} (f : X -> bool) (l : list X) :
  (forall x, In x l -> f x = true) -> filter f l = l.
Proof.
  induction l as [|x l IH]; intros H; [reflexivity|]. simpl.
  rewrite (H x (or_introl eq_refl)), IH; [reflexivity|].
  intros y Hy. apply H. now right.
Qed.

(** Runs laid out as the pipeline writes them,
    [{base}/{id}/{id}/output_out/catalog.csv], under distinct well-formed
    names: [get_triggers] returns exactly the names that do not begin with
    a dot, in their order, and [get_catalog] hands the parser the very
    bytes of the catalog of the run asked for. *)
Theorem laid_out_runs_round_trip `{Library}
    (runs : list (string * list Byte.byte)) :
  forallb valid_name (map fst runs) = true ->
  distinct (map fst runs) = true ->
  outcome (get_triggers (site (map (fun r => run_output (fst r) (snd r)) runs)))
  = Ok (filter (fun name => negb (_ishidden name)) (map fst runs)) /\
  forall (t : string) (data : list Byte.byte),
    In (t, data) runs ->
    open_read (site (map (fun r => run_output (fst r) (snd r)) runs))
      (catalog_file t) = inr data /\
    outcome (get_catalog
               (site (map (fun r => run_output (fst r) (snd r)) runs)) t)
    = read_csv_buffer data [1].
Proof.
  intros Hv Hd.
  set (es := map (fun r => run_output (fst r) (snd r)) runs).
  assert (Hnames : map fst es = map fst runs).
  { unfold es. rewrite map_map. apply map_ext. now intros [t d]. }
  assert (Hfile : forall t data, In (t, data) runs ->
                    lookup (site es) (catalog_file t) = inr (File data)).
  { intros t data Hin. apply lookup_run_catalog.
    - rewrite forallb_forall in Hv. apply Hv.
      change t with (fst (t, data)). now apply in_map.
    - apply assoc_In; [now rewrite Hnames|].
      unfold es. change (t, snd (run_output t data))
        with ((fun r => run_output (fst r) (snd r)) (t, data)).
      now apply in_map. }
  split.
  - rewrite get_triggers_eq. cbn [outcome snd]. f_equal.
    assert (Hg : _glob1 (site es) BASEPATH =
                 filter (fun name => negb (_ishidden name)) (map fst runs)).
    { unfold _glob1, _listdir. now rewrite lookup_site, Hnames. }
    assert (Hb : map basename (glob (site es) BASEPATH) =
                 _glob1 (site es) BASEPATH).
    { unfold glob. rewrite map_map.
      rewrite <- (map_id (_glob1 (site es) BASEPATH)) at 2.
      apply map_ext_in. intros name Hin. apply basename_join.
      apply valid_name_no_slash. rewrite forallb_forall in Hv. apply Hv.
      rewrite Hg in Hin. apply filter_In in Hin. tauto. }
    rewrite Hb, Hg. apply filter_all. intros name Hin.
    apply filter_In in Hin as [Hin _]. apply in_map_iff in Hin as ([t d] & <- & Hin).
    unfold isfile. cbn [fst]. now rewrite (Hfile t d Hin).
  - intros t data Hin. pose proof (Hfile t data Hin) as Hl.
    split; [unfold open_read; now rewrite Hl|].
    exact (get_catalog_reads_file _ _ _ Hl).
Qed.

Lemma laid_out_runs_round_trip_witness :
  outcome (get_triggers
             (site (map (fun r => run_output (fst r) (snd r))
                      [("2014p051675", [Byte.x61]); (".tmp", []);
                       ("2016p858000", [Byte.x62])])))
  = Ok ["2014p051675"; "2016p858000"] /\
  forall (t : string) (data : list Byte.byte),
    In (t, data) [("2014p051675", [Byte.x61]); (".tmp", []);
                  ("2016p858000", [Byte.x62])] ->
    open_read
      (site (map (fun r => run_output (fst r) (snd r))
               [("2014p051675", [Byte.x61]); (".tmp", []);
                ("2016p858000", [Byte.x62])]))
      (catalog_file t) = inr data /\
    outcome (@get_catalog line_library
               (site (map (fun r => run_output (fst r) (snd r))
                        [("2014p051675", [Byte.x61]); (".tmp", []);
                         ("2016p858000", [Byte.x62])])) t)
    = @read_csv_buffer line_library data [1].
Proof.
  apply (@laid_out_runs_round_trip line_library
           [("2014p051675", [Byte.x61]); (".tmp", []);
            ("2016p858000", [Byte.x62])]); reflexivity.
Defined.

(** ** When the loaders log an error, and when the plot handler looks *)

(** Each loader logs an [ERROR] record exactly when the file it is about to
    read is not an existing regular file; the parser and its result have no
    part in it. *)
Theorem loaders_log_error_iff_missing `{Library} (fs : node)
    (triggerID : string) :
  has_error (logged (get_catalog fs triggerID)) =
    negb (isfile fs (catalog_file triggerID)) /\
  has_error (logged (get_sources fs triggerID)) =
    negb (isfile fs (source_file triggerID)).
Proof.
  split.
  - destruct (isfile fs (catalog_file triggerID)) eqn:Hf.
    + destruct (open_read_file _ _ Hf) as [data Ho].
      rewrite (get_catalog_opened _ _ _ Ho).
      destruct (read_csv_buffer data [1]); reflexivity.
    + destruct (open_read_not_file _ _ Hf) as [e Ho].
      now rewrite (get_catalog_missing _ _ _ Hf Ho).
  - destruct (isfile fs (source_file triggerID)) eqn:Hf.
    + destruct (open_read_file _ _ Hf) as [data Ho].
      now rewrite (get_sources_opened _ _ _ Ho).
    + destruct (open_read_not_file _ _ Hf) as [e Ho].
      now rewrite (get_sources_missing _ _ _ Hf Ho).
Qed.

(** A plot type outside [KNOWN_PLOT_TYPES] is refused before any path is
    built or looked up: the response and the log are the same on every file
    system and for every trigger identifier, and the log names the plot
    type, not a file. *)
Theorem root_plots_unknown_type_ignores_files (fs fs' : node)
    (triggerID triggerID' plot_type : string) :
  ~ In plot_type KNOWN_PLOT_TYPES ->
  root_plots fs triggerID plot_type = root_plots fs' triggerID' plot_type /\
  logged (root_plots fs triggerID plot_type) =
    [ERROR (plot_type ++ " not in known types.")].
Proof.
  intros Hn. apply not_known_In in Hn.
  rewrite !(root_plots_unknown _ _ _ Hn). split; reflexivity.
Qed.

Lemma root_plots_unknown_type_ignores_files_witness :
  root_plots plotted_fs "2014p051675" "Focal_Sphere" =
    root_plots bare_fs "../.." "Focal_Sphere" /\
  logged (root_plots plotted_fs "2014p051675" "Focal_Sphere") =
    [ERROR ("Focal_Sphere" ++ " not in known types.")].
Proof.
  apply (root_plots_unknown_type_ignores_files plotted_fs bare_fs).
  simpl. intros H. repeat destruct H as [H|H]; try discriminate H. exact H.
Defined.

(** ** Distinct identifiers, distinct paths *)

Lemma append_length (a b : string) :
  String.length (a ++ b) = String.length a + String.length b.
Proof. induction a as [|c a IH]; simpl; [reflexivity | now rewrite IH]. Qed.

Lemma append_cancel_l (a x y : string) : a ++ x = a ++ y -> x = y.
Proof.
  induction a as [|c a IH]; simpl; [trivial|]. intros [= H]. exact (IH H).
Qed.

Lemma append_same_length (a1 a2 r1 r2 : string) :
  String.length a1 = String.length a2 -> a1 ++ r1 = a2 ++ r2 -> a1 = a2.
Proof.
  revert a2. induction a1 as [|c a1 IH]; intros [|c' a2]; simpl;
    try discriminate; [reflexivity|].
  intros [= Hl] [= -> Hr]. f_equal. exact (IH _ Hl Hr).
Qed.

Lemma doubled_injective (t1 t2 suffix : string) :
  t1 ++ "/" ++ t1 ++ suffix = t2 ++ "/" ++ t2 ++ suffix -> t1 = t2.
Proof.
  intros H. assert (Hl : String.length t1 = String.length t2).
  { apply (f_equal String.length) in H.
    rewrite !append_length in H. simpl in H. lia. }
  exact (append_same_length _ _ _ _ Hl H).
Qed.

Lemma catalog_path_injective (basepath t1 t2 : string) :
  catalog_path basepath t1 = catalog_path basepath t2 -> t1 = t2.
Proof.
  change (catalog_path basepath t1)
    with (Some (basepath ++ "/" ++ t1 ++ "/" ++ t1 ++ "/output_out/catalog.csv")).
  change (catalog_path basepath t2)
    with (Some (basepath ++ "/" ++ t2 ++ "/" ++ t2 ++ "/output_out/catalog.csv")).
  intros [= H]. apply append_cancel_l in H. injection H as H.
  exact (doubled_injective _ _ _ H).
Qed.

Lemma source_path_injective (basepath t1 t2 : string) :
  source_path basepath t1 = source_path basepath t2 -> t1 = t2.
Proof.
  change (source_path basepath t1)
    with (Some (basepath ++ "/" ++ t1 ++ "/" ++ t1 ++
                "/plotter_out/output_metrics_summary_file.csv")).
  change (source_path basepath t2)
    with (Some (basepath ++ "/" ++ t2 ++ "/" ++ t2 ++
                "/plotter_out/output_metrics_summary_file.csv")).
  intros [= H]. apply append_cancel_l in H. injection H as H.
  exact (doubled_injective _ _ _ H).
Qed.

(** For a given base directory, two different trigger identifiers never
    resolve to the same catalog path, nor to the same source-summary path:
    the resolved path determines the identifier. *)
Theorem resolved_path_determines_trigger (basepath t1 t2 : string) :
  t1 <> t2 ->
  catalog_path basepath t1 <> catalog_path basepath t2 /\
  source_path basepath t1 <> source_path basepath t2.
Proof.
  intros Hne. split; intros H; apply Hne.
  - exact (catalog_path_injective _ _ _ H).
  - exact (source_path_injective _ _ _ H).
Qed.

Lemma resolved_path_determines_trigger_witness :
  catalog_path BASEPATH "2014p051675" <> catalog_path BASEPATH "2014p051675/" /\
  source_path BASEPATH "2014p051675" <> source_path BASEPATH "2014p051675/".
Proof.
  apply (resolved_path_determines_trigger BASEPATH "2014p051675" "2014p051675/").
  discriminate.
Defined.
